(** * A shallow embedding of the market-research pipeline of [src/app.py]

    The class [MarketResearchAgent] chains an LLM service (autogen's
    [AssistantAgent]) and a web-search service ([Exa]) into four stages:
    [determine_industry]/[research_company], [generate_use_cases],
    [collect_resource_assets] and [generate_final_proposal].

    Python [str] values are modelled as Rocq [string]s whose characters are
    read as code points below 256; the case mappings below are Python's on
    ASCII letters (and, for [lower], on Latin-1 letters). *)

From Stdlib Require Import String Ascii List Bool Arith Lia.
Import ListNotations.
Open Scope string_scope.
Open Scope nat_scope.

(* ------------------------------------------------------------------ *)
(** ** Python string primitives *)

Module Py.

Definition chr (n : nat) : string := String (ascii_of_nat n) EmptyString.

(** ["\n"] and the double quote character. *)
Definition nl : string := chr 10.
Definition dq : string := chr 34.

(** [str.isspace] on a single character (Latin-1 range). *)
Definition is_space (c : ascii) : bool :=
  let n := nat_of_ascii c in
  ((9 <=? n) && (n <=? 13)) || ((28 <=? n) && (n <=? 32))
  || (n =? 133) || (n =? 160).

Definition is_digit (c : ascii) : bool :=
  let n := nat_of_ascii c in (48 <=? n) && (n <=? 57).

Definition is_upper (c : ascii) : bool :=
  let n := nat_of_ascii c in (65 <=? n) && (n <=? 90).

Definition is_lower (c : ascii) : bool :=
  let n := nat_of_ascii c in (97 <=? n) && (n <=? 122).

(** Latin-1 capitals with a one-character lower case: A-Z, and
    U+00C0..U+00DE except U+00D7. *)
Definition lower_char (c : ascii) : ascii :=
  let n := nat_of_ascii c in
  if is_upper c || ((192 <=? n) && (n <=? 222) && negb (n =? 215))
  then ascii_of_nat (n + 32) else c.

Definition upper_char (c : ascii) : ascii :=
  if is_lower c then ascii_of_nat (nat_of_ascii c - 32) else c.

(** [str.lower]. *)
Fixpoint lower (s : string) : string :=
  match s with
  | EmptyString => EmptyString
  | String c s' => String (lower_char c) (lower s')
  end.

(** [str.title]: a character following a cased character is lowered,
    any other one is title-cased; "cased" is tested on the original
    character, as CPython's [do_title] does. Only the ASCII letters are
    treated as cased here: CPython also cases the Latin-1 letters. *)
Fixpoint title_aux (previous_is_cased : bool) (s : string) : string :=
  match s with
  | EmptyString => EmptyString
  | String c s' =>
      String (if previous_is_cased then lower_char c else upper_char c)
             (title_aux (is_upper c || is_lower c) s')
  end.

Definition title (s : string) : string := title_aux false s.

(** [str.lstrip()] and [str.strip()]. *)
Fixpoint lstrip (s : string) : string :=
  match s with
  | EmptyString => EmptyString
  | String c s' => if is_space c then lstrip s' else s
  end.

Fixpoint rev_str (s : string) (acc : string) : string :=
  match s with
  | EmptyString => acc
  | String c s' => rev_str s' (String c acc)
  end.

Definition rstrip (s : string) : string :=
  rev_str (lstrip (rev_str s EmptyString)) EmptyString.

Definition strip (s : string) : string := rstrip (lstrip s).

(** [sub in s] for strings: a substring test. *)
Fixpoint py_in (sub s : string) : bool :=
  String.prefix sub s ||
  match s with
  | EmptyString => false
  | String _ s' => py_in sub s'
  end.

(** Decimal rendering of a natural number ([str(n)]). *)
Fixpoint digits (fuel n : nat) : string :=
  match fuel with
  | 0 => EmptyString
  | S f =>
      let d := chr (48 + n mod 10) in
      if n <? 10 then d else digits f (n / 10) ++ d
  end.

Definition str_nat (n : nat) : string := digits (S n) n.

(** Zero-padded two-digit rendering ([%d] of [strftime]). *)
Definition pad2 (n : nat) : string :=
  if n <? 10 then "0" ++ str_nat n else str_nat n.

End Py.

(* ------------------------------------------------------------------ *)
(** ** [re.split(r'\d+\.', s)] *)

Module Re.

(** After at least one digit: the rest of the digit run, then a dot.
    [\d+] is greedy and the character after the whole run is a non-digit,
    so backtracking into the run can never find the dot. *)
Fixpoint digits_then_dot (s : string) : option string :=
  match s with
  | EmptyString => None
  | String c s' =>
      if Py.is_digit c then digits_then_dot s'
      else if (c =? "."%char)%char then Some s' else None
  end.

(** [re.match(r'\d+\.', s)]: [Some rest] when a match starts at the
    beginning of [s], [rest] being what follows it. *)
Definition match_marker (s : string) : option string :=
  match s with
  | String c s' => if Py.is_digit c then digits_then_dot s' else None
  | EmptyString => None
  end.

(** The scan of [re.split]: at each position try the pattern; on a match
    close the current piece and resume after the match, otherwise move one
    character on.  [fuel] bounds the number of steps. *)
Fixpoint split_aux (fuel : nat) (s cur : string) : list string :=
  match fuel with
  | 0 => [cur ++ s]
  | S f =>
      match match_marker s with
      | Some rest => cur :: split_aux f rest EmptyString
      | None =>
          match s with
          | EmptyString => [cur]
          | String c s' => split_aux f s' (cur ++ String c EmptyString)
          end
      end
  end.

Definition split_num (s : string) : list string :=
  split_aux (S (String.length s)) s EmptyString.

(** [re.search(r'\d+\.', s) is not None]. *)
Fixpoint has_marker (s : string) : bool :=
  match s with
  | EmptyString => false
  | String _ s' =>
      match match_marker s with Some _ => true | None => has_marker s' end
  end.

End Re.

(* ------------------------------------------------------------------ *)
(** ** [json.dumps] with its default options ([ensure_ascii=True],
    separators [", "] and [": "]). *)

Set Warnings "-register-all".

Module Json.

Inductive value :=
| JStr (s : string)
| JList (l : list value)
| JObj (kv : list (string * value)).

Definition hex_digit (n : nat) : string :=
  if n <? 10 then Py.chr (48 + n) else Py.chr (87 + n).

(** ["\\u%04x"] for a code point below 256. *)
Definition u_escape (n : nat) : string :=
  "\" ++ "u00" ++ hex_digit (n / 16) ++ hex_digit (n mod 16).

Definition escape_char (c : ascii) : string :=
  let n := nat_of_ascii c in
  if n =? 34 then "\" ++ Py.dq
  else if n =? 92 then "\\"
  else if n =? 10 then "\n"
  else if n =? 13 then "\r"
  else if n =? 9 then "\t"
  else if n =? 8 then "\b"
  else if n =? 12 then "\f"
  else if (n <? 32) || (126 <? n) then u_escape n
  else String c EmptyString.

Fixpoint escape (s : string) : string :=
  match s with
  | EmptyString => EmptyString
  | String c s' => escape_char c ++ escape s'
  end.

Definition quote (s : string) : string := Py.dq ++ escape s ++ Py.dq.

Fixpoint join (sep : string) (l : list string) : string :=
  match l with
  | [] => EmptyString
  | [x] => x
  | x :: l' => x ++ sep ++ join sep l'
  end.

Fixpoint dumps (v : value) : string :=
  match v with
  | JStr s => quote s
  | JList l => "[" ++ join ", " (map dumps l) ++ "]"
  | JObj kv =>
      "{" ++ join ", " (map (fun '(k, x) => quote k ++ ": " ++ dumps x) kv)
      ++ "}"
  end.

End Json.

(* ------------------------------------------------------------------ *)
(** ** Data model *)

(** A result of [Exa.search]: [res.title], [res.url], [res.summary] and
    the optional [res.published_date]. *)
Record exa_result := mk_exa_result {
  res_title : string;
  res_url : string;
  res_summary : string;
  res_published_date : option string
}.

(** A research insight: the Python dict built in [research_company];
    [ins_published_date] is its ['published_date'] key, [None] when the
    dict has no such key. *)
Record insight := mk_insight {
  ins_title : string;
  ins_url : string;
  ins_snippet : string;
  ins_published_date : option string
}.

(** A dataset resource: the dict [{"url": ..., "title": ...}]. *)
Record resource := mk_resource {
  rs_url : string;
  rs_title : string
}.

(** A Python dict with string keys, in insertion order. *)
Definition dict (V : Type) := list (string * V).

Fixpoint dict_get {V} (k : string) (d : dict V) : option V :=
  match d with
  | [] => None
  | (k', v) :: d' => if String.eqb k k' then Some v else dict_get k d'
  end.

(** [d[k] = v]: an existing key keeps its position, a new key is appended. *)
Fixpoint dict_set {V} (d : dict V) (k : string) (v : V) : dict V :=
  match d with
  | [] => [(k, v)]
  | (k', v') :: d' =>
      if String.eqb k k' then (k', v) :: d' else (k', v') :: dict_set d' k v
  end.

(** [datetime] as far as [strftime('%B %d, %Y')] reads it. *)
Record datetime := mk_datetime {
  dt_year : nat; dt_month : nat; dt_day : nat;
  dt_hour : nat; dt_minute : nat; dt_second : nat
}.

Definition month_name (m : nat) : string :=
  nth (m - 1) ["January"; "February"; "March"; "April"; "May"; "June"; "July";
               "August"; "September"; "October"; "November"; "December"] "".

Definition strftime_BdY (d : datetime) : string :=
  month_name (dt_month d) ++ " " ++ Py.pad2 (dt_day d) ++ ", "
  ++ Py.str_nat (dt_year d).

(* ------------------------------------------------------------------ *)
(** ** Effects: a state and exception monad *)

(** A raised Python exception, by its [str()]. *)
Definition exn := string.

Inductive result (A : Type) :=
| Ok (a : A)
| Raise (e : exn).
Arguments Ok {A} a.
Arguments Raise {A} e.

(** The calls made to the two services, in order. *)
Inductive call :=
| CallSearch (query : string) (num_results : nat) (type : option string)
| CallLLM (agent : string) (prompt : string)
| CallClock.

(** Messages shown through [st.error] and [st.warning]. *)
Inductive msg :=
| MsgError (text : string)
| MsgWarning (text : string).

Record world := mk_world {
  calls : list call;
  msgs : list msg;
  files : list (string * string)
}.

Definition M (A : Type) := world -> result A * world.

Definition ret {A} (a : A) : M A := fun w => (Ok a, w).

Definition bind {A B} (m : M A) (f : A -> M B) : M B :=
  fun w => match m w with
           | (Ok a, w') => f a w'
           | (Raise e, w') => (Raise e, w')
           end.

Notation "x <- m ;; k" := (bind m (fun x => k))
  (at level 61, m at next level, right associativity).
Notation "m ;;; k" := (bind m (fun _ => k))
  (at level 61, right associativity).

(** [try: m except Exception as e: h(e)]; effects of [m] before the raise
    are kept. *)
Definition try_except {A} (m : M A) (h : exn -> M A) : M A :=
  fun w => match m w with
           | (Ok a, w') => (Ok a, w')
           | (Raise e, w') => h e w'
           end.

Definition tick (w : world) : nat := length (calls w).

Definition log_call (c : call) (w : world) : world :=
  mk_world (calls w ++ [c]) (msgs w) (files w).

Definition st_error (text : string) : M unit :=
  fun w => (Ok tt, mk_world (calls w) (msgs w ++ [MsgError text]) (files w)).

Definition st_warning (text : string) : M unit :=
  fun w => (Ok tt, mk_world (calls w) (msgs w ++ [MsgWarning text]) (files w)).


(* ------------------------------------------------------------------ *)
(** ** The pipeline ([class MarketResearchAgent]) *)



Section Agent.

(** The services, answering the [n]-th external call of the run:
    [self.exa.search(query, num_results, type)],
    [AssistantAgent(agent, ...).generate_reply(messages=[prompt])] and the
    system clock read by [datetime.now()]. *)
Variable exa_search : nat -> string -> nat -> option string -> result (list exa_result).
Variable generate_reply : nat -> string -> string -> result string.
Variable clock : nat -> datetime.

Definition exa_call (query : string) (num_results : nat) (type : option string)
  : M (list exa_result) :=
  fun w => (exa_search (tick w) query num_results type,
            log_call (CallSearch query num_results type) w).

Definition llm_call (agent prompt : string) : M string :=
  fun w => (generate_reply (tick w) agent prompt, log_call (CallLLM agent prompt) w).

Definition datetime_now : M datetime :=
  fun w => (Ok (clock (tick w)), log_call CallClock w).

(** A line of a triple-quoted prompt, indented by eight spaces. *)
Definition prompt_line (s : string) : string := Py.nl ++ "        " ++ s.

Definition industry_prompt (company_name : string) : string :=
  prompt_line ("Analyze the company " ++ company_name
               ++ " and determine its primary industry.")
  ++ prompt_line "Return only the industry name without any explanation or additional text."
  ++ prompt_line ("Example response format: " ++ Py.dq ++ "Electric Vehicles" ++ Py.dq
                  ++ " or " ++ Py.dq ++ "Cloud Computing" ++ Py.dq)
  ++ prompt_line "".

(** [determine_industry]. *)
Definition determine_industry (company_name : string) : M string :=
  industry <- llm_call "industry_analyzer" (industry_prompt company_name) ;;
  ret (Py.strip industry).

Definition search_queries (industry company_name : string) : list string :=
  [industry ++ " industry overview and trends";
   company_name ++ " strategic focus and market position";
   industry ++ " technological innovations and future outlook"].

Definition to_insight (res : exa_result) : insight :=
  mk_insight (res_title res) (res_url res) (res_summary res) None.

(** The [for query in search_queries] loop of [research_company]. *)
Fixpoint research_loop (queries : list string) (research_results : dict (list insight))
  : M (dict (list insight)) :=
  match queries with
  | [] => ret research_results
  | query :: queries' =>
      research_results' <-
        try_except
          (results <- exa_call query 3 (Some "neural") ;;
           ret (dict_set research_results query (map to_insight results)))
          (fun e => st_error ("Research error for query '" ++ query ++ "': " ++ e) ;;;
                    ret research_results) ;;
      research_loop queries' research_results'
  end.

(** [research_company]: returns [(research_results, industry)]. *)
Definition research_company (company_name : string)
  : M (dict (list insight) * string) :=
  industry <- determine_industry company_name ;;
  research_results <- research_loop (search_queries industry company_name) [] ;;
  ret (research_results, industry).

Definition insight_json (i : insight) : Json.value :=
  Json.JObj ([("title", Json.JStr (ins_title i)); ("url", Json.JStr (ins_url i));
              ("snippet", Json.JStr (ins_snippet i))]
             ++ match ins_published_date i with
                | Some d => [("published_date", Json.JStr d)]
                | None => []
                end).

Definition insights_json (research_insights : dict (list insight)) : Json.value :=
  Json.JObj (map (fun '(q, l) => (q, Json.JList (map insight_json l))) research_insights).

Definition use_case_prompt (company_name industry : string)
  (research_insights : dict (list insight)) : string :=
  prompt_line ("Based on the analysis of " ++ company_name ++ " in the " ++ industry
               ++ " industry, generate innovative AI/ML use cases.")
  ++ prompt_line ("Research insights: " ++ Json.dumps (insights_json research_insights))
  ++ prompt_line "Focus on:"
  ++ prompt_line "- Operational efficiency"
  ++ prompt_line "- Customer experience enhancement"
  ++ prompt_line "- Technological innovation"
  ++ prompt_line "Give at least 5 detailed distinct use cases."
  ++ prompt_line "Avoid giving code or implementation details."
  ++ prompt_line "Provide specific, actionable recommendations."
  ++ prompt_line "".

(** [[case.strip() for case in re.split(r'\d+\.', text) if case.strip()]]. *)
Definition parse_use_cases (text : string) : list string :=
  map Py.strip
    (filter (fun case => negb (String.eqb (Py.strip case) "")) (Re.split_num text)).

(** [generate_use_cases]. *)
Definition generate_use_cases (company_name industry : string)
  (research_insights : dict (list insight)) : M (list string) :=
  use_cases <- llm_call "use_case_generator"
                 (use_case_prompt company_name industry research_insights) ;;
  ret (parse_use_cases use_cases).

Definition platforms : list string :=
  ["kaggle.com/datasets"; "huggingface.co/datasets"; "github.com/datasets"].

(** The filter of the comprehension in [collect_resource_assets]. *)
Definition keep_result (platform : string) (res : exa_result) : bool :=
  Py.py_in platform (res_url res)
  && existsb (fun keyword => Py.py_in keyword (Py.lower (res_url res)))
             ["dataset"; "data"].

Definition platform_resources (platform : string) (results : list exa_result)
  : list resource :=
  map (fun res => mk_resource (res_url res) (res_title res))
      (filter (keep_result platform) results).

Definition resource_query (use_case platform : string) : string :=
  Py.dq ++ use_case ++ Py.dq ++ " dataset site:" ++ platform.

(** The [for platform in platforms] loop. *)
Fixpoint platform_loop (use_case : string) (ps : list string) (resources : list resource)
  : M (list resource) :=
  match ps with
  | [] => ret resources
  | platform :: ps' =>
      resources' <-
        try_except
          (results <- exa_call (resource_query use_case platform) 3 None ;;
           ret (resources ++ platform_resources platform results)%list)
          (fun e => st_warning ("Resource collection error for '" ++ use_case
                                ++ "': " ++ e) ;;;
                    ret resources) ;;
      platform_loop use_case ps' resources'
  end.

(** The [for use_case in use_cases] loop. *)
Fixpoint use_case_loop (use_cases : list string) (resource_map : dict (list resource))
  : M (dict (list resource)) :=
  match use_cases with
  | [] => ret resource_map
  | use_case :: use_cases' =>
      resources <- platform_loop use_case platforms [] ;;
      use_case_loop use_cases' (dict_set resource_map use_case (firstn 3 resources))
  end.

(** [collect_resource_assets]. *)
Definition collect_resource_assets (use_cases : list string) : M (dict (list resource)) :=
  use_case_loop use_cases [].

(** One research result of the proposal. *)
Definition insight_markdown (i : insight) : string :=
  let date_str :=
    match ins_published_date i with
    | Some d => if String.eqb d "N/A" then "" else " (" ++ d ++ ")"
    | None => ""
    end in
  "#### " ++ ins_title i ++ date_str ++ Py.nl ++ Py.nl
  ++ ins_snippet i ++ Py.nl ++ Py.nl
  ++ "[Read more](" ++ ins_url i ++ ")" ++ Py.nl ++ Py.nl
  ++ "---" ++ Py.nl ++ Py.nl.

Fixpoint research_markdown (research_insights : dict (list insight)) : string :=
  match research_insights with
  | [] => ""
  | (query, insights) :: rest =>
      "### " ++ Py.title query ++ Py.nl ++ Py.nl
      ++ String.concat "" (map insight_markdown insights)
      ++ research_markdown rest
  end.

Definition resource_markdown (r : resource) : string :=
  "- [" ++ rs_title r ++ "](" ++ rs_url r ++ ")" ++ Py.nl.

(** [for idx, use_case in enumerate(use_cases, 1)]. *)
Fixpoint use_cases_markdown (idx : nat) (use_cases : list string)
  (resource_map : dict (list resource)) : string :=
  match use_cases with
  | [] => ""
  | use_case :: rest =>
      "### Use Case " ++ Py.str_nat idx ++ ": " ++ use_case ++ Py.nl ++ Py.nl
      ++ match dict_get use_case resource_map with
         | Some ((_ :: _) as resources) =>
             "#### Recommended Datasets:" ++ Py.nl
             ++ String.concat "" (map resource_markdown resources)
         | _ => ""
         end
      ++ Py.nl
      ++ use_cases_markdown (S idx) rest resource_map
  end.

(** [generate_final_proposal]: reads the clock itself. *)
Definition generate_final_proposal (company_name industry : string)
  (use_cases : list string) (resource_map : dict (list resource))
  (research_insights : dict (list insight)) : M string :=
  now <- datetime_now ;;
  ret ("# AI Strategy Analysis for " ++ company_name ++ Py.nl ++ Py.nl
       ++ "## Industry: " ++ industry ++ Py.nl ++ Py.nl
       ++ "*Generated on " ++ strftime_BdY now ++ "*" ++ Py.nl ++ Py.nl
       ++ "## Market Research Insights" ++ Py.nl
       ++ research_markdown research_insights
       ++ "## Recommended AI/ML Use Cases" ++ Py.nl ++ Py.nl
       ++ use_cases_markdown 1 use_cases resource_map).

Definition analysis : Type :=
  (string * dict (list insight) * list string * dict (list resource) * string)%type.

(** The four phases of [main] (lines 187-208), one after the other, as the
    button branch runs them once an agent exists. *)
Definition run_stages (company_name : string) : M analysis :=
  ri <- research_company company_name ;;
  let (research_insights, industry) := ri in
  use_cases <- generate_use_cases company_name industry research_insights ;;
  resource_map <- collect_resource_assets use_cases ;;
  final_proposal <- generate_final_proposal company_name industry use_cases
                      resource_map research_insights ;;
  ret (industry, research_insights, use_cases, resource_map, final_proposal).



(** *** Outcomes of the service calls, for stating what the loops do *)

(** The answers to the research queries, the first one being the [n]-th
    external call of the run. *)
Fixpoint research_outcomes (n : nat) (queries : list string)
  : list (string * result (list exa_result)) :=
  match queries with
  | [] => []
  | query :: queries' =>
      (query, exa_search n query 3 (Some "neural")) :: research_outcomes (S n) queries'
  end.

(** The resources a platform contributes for a given answer of the search
    service: the filtered results on success, nothing on an exception. *)
Definition kept (platform : string) (o : result (list exa_result)) : list resource :=
  match o with
  | Ok results => platform_resources platform results
  | Raise _ => []
  end.

(** The resources accumulated over the platforms [ps] for [use_case], the
    first search being the [n]-th external call of the run. *)
Fixpoint accumulated (n : nat) (use_case : string) (ps : list string) : list resource :=
  match ps with
  | [] => []
  | platform :: ps' =>
      (kept platform (exa_search n (resource_query use_case platform) 3 None)
       ++ accumulated (S n) use_case ps')%list
  end.

End Agent.

(** The research map built from a list of answers: one entry per query
    whose search returned. *)
Definition research_entries (outs : list (string * result (list exa_result)))
  : dict (list insight) :=
  flat_map (fun '(query, o) =>
              match o with
              | Ok results => [(query, map to_insight results)]
              | Raise _ => []
              end) outs.

(** The [st.error] messages for the answers that were exceptions. *)
Definition research_errors (outs : list (string * result (list exa_result))) : list msg :=
  flat_map (fun '(query, o) =>
              match o with
              | Ok _ => []
              | Raise e => [MsgError ("Research error for query '" ++ query ++ "': " ++ e)]
              end) outs.

Definition is_raise {A} (o : result A) : bool :=
  match o with Raise _ => true | Ok _ => false end.

(** A Python substring test stated without computation. *)
Definition substring_of (sub s : string) : Prop :=
  exists a b, s = a ++ sub ++ b.

(** The last character of a string. *)
Fixpoint last_char (s : string) : option ascii :=
  match s with
  | EmptyString => None
  | String c EmptyString => Some c
  | String _ s' => last_char s'
  end.

(** The number of answers that were exceptions. *)
Definition count_raise (outs : list (string * result (list exa_result))) : nat :=
  length (filter is_raise (map snd outs)).

(** ** Concrete services and inputs *)

Module Fixtures.

Definition w0 : world := mk_world [] [] [].

Definition dated_result : exa_result :=
  mk_exa_result "Robotics market 2024" "kaggle.com/datasets/x/robotics-data"
                "Market summary" (Some "2024-05-01").

Definition notebook_result : exa_result :=
  mk_exa_result "Notebook" "kaggle.com/notebooks/x" "A notebook" None.

(** A search service answering every call with two results but the second
    call of the run, which raises. *)
Definition search_second_fails (n : nat) (query : string) (k : nat)
  (type : option string) : result (list exa_result) :=
  if n =? 2 then Raise "timeout" else Ok [dated_result; notebook_result].

(** A search service that always answers with the dated result. *)
Definition search_dated (n : nat) (query : string) (k : nat)
  (type : option string) : result (list exa_result) :=
  Ok [dated_result].

(** A search service whose every call raises. *)
Definition search_down (n : nat) (query : string) (k : nat)
  (type : option string) : result (list exa_result) :=
  Raise "quota exceeded".

Definition llm_acme (n : nat) (agent prompt : string) : result string :=
  if String.eqb agent "industry_analyzer" then Ok " Industrial Robotics"
  else Ok "1. Improve routing. 2. Predict churn.".

Definition llm_blank (n : nat) (agent prompt : string) : result string := Ok "   ".

Definition llm_down (n : nat) (agent prompt : string) : result string :=
  Raise "rate limit".

Definition llm_generation_fails (n : nat) (agent prompt : string) : result string :=
  if String.eqb agent "use_case_generator" then Raise "rate limit"
  else Ok "Industrial Robotics".

(** A clock crossing midnight between the first external call and the
    later ones. *)
Definition clock_midnight (n : nat) : datetime :=
  if n =? 0 then mk_datetime 2025 1 1 23 59 59 else mk_datetime 2025 1 2 0 0 0.

(** A clock staying on one day, the hour moving with the calls. *)
Definition clock_one_day (n : nat) : datetime := mk_datetime 2025 1 1 (n mod 24) 0 0.

End Fixtures.

(** The resources a resource map lists for a use case, an absent key read
    as none: what [use_case in resource_map and resource_map[use_case]]
    tests. *)
Definition entries_of (use_case : string) (resource_map : dict (list resource))
  : list resource :=
  match dict_get use_case resource_map with Some l => l | None => [] end.

(** The use-case section of a proposal in which no use case has resources:
    one heading per use case. *)
Fixpoint headings_only (idx : nat) (use_cases : list string) : string :=
  match use_cases with
  | [] => ""
  | use_case :: rest =>
      "### Use Case " ++ Py.str_nat idx ++ ": " ++ use_case ++ Py.nl ++ Py.nl ++ Py.nl
      ++ headings_only (S idx) rest
  end.

(** The searches the resource collector issues for a list of use cases. *)
Definition resource_searches (use_cases : list string) : list call :=
  flat_map (fun use_case =>
              map (fun platform => CallSearch (resource_query use_case platform) 3 None)
                  platforms) use_cases.

(** The reverse of a string. *)
Definition rev_s (s : string) : string := Py.rev_str s "".

(** A string that is empty or starts with a non-space character. *)
Definition starts_clean (s : string) : Prop :=
  match s with EmptyString => True | String c _ => Py.is_space c = false end.

(** The keys a dict gets when its keys are set in the order of [l], a key
    already present keeping its place. *)
Definition note_key (seen : list string) (k : string) : list string :=
  if existsb (String.eqb k) seen then seen else (seen ++ [k])%list.

Definition first_occurrences (l : list string) : list string :=
  fold_left note_key l [].

(* ================================================================== *)
(** * Properties *)

(** ** Strings and dicts *)

Lemma str_app_assoc (a b c : string) : (a ++ b) ++ c = a ++ (b ++ c).
Proof. induction a as [|x a IH]; simpl; [reflexivity | now rewrite IH]. Qed.

Lemma str_app_nil_r (a : string) : a ++ "" = a.
Proof. induction a as [|x a IH]; simpl; [reflexivity | now rewrite IH]. Qed.

Lemma dict_get_app {V} (k : string) (d1 d2 : dict V) :
  dict_get k (d1 ++ d2)%list =
  match dict_get k d1 with Some v => Some v | None => dict_get k d2 end.
Proof.
  induction d1 as [|[k' v'] d1 IH]; simpl; [reflexivity|].
  destruct (String.eqb k k'); [reflexivity | exact IH].
Qed.

Lemma dict_set_new {V} (d : dict V) (k : string) (v : V) :
  dict_get k d = None -> dict_set d k v = (d ++ [(k, v)])%list.
Proof.
  induction d as [|[k' v'] d IH]; simpl; [reflexivity|].
  destruct (String.eqb k k'); [discriminate|].
  intro H; now rewrite IH.
Qed.

Lemma dict_get_In {V} (k : string) (v : V) (d : dict V) :
  dict_get k d = Some v -> In (k, v) d.
Proof.
  induction d as [|[k' v'] d IH]; simpl; [discriminate|].
  destruct (String.eqb_spec k k') as [->|_].
  - intros [= ->]; now left.
  - intro H; right; exact (IH H).
Qed.

Lemma dict_get_Some_of_key {V} (k : string) (d : dict V) :
  In k (map fst d) -> exists v, dict_get k d = Some v.
Proof.
  induction d as [|[k' v'] d IH]; simpl; [contradiction|].
  destruct (String.eqb_spec k k') as [->|Hne]; [eauto|].
  intros [->|H]; [contradiction | exact (IH H)].
Qed.

Lemma dict_set_In {V} (d : dict V) (k0 k : string) (v0 v : V) :
  In (k, v) (dict_set d k0 v0) -> (k = k0 /\ v = v0) \/ In (k, v) d.
Proof.
  induction d as [|[k' v'] d IH]; simpl.
  - intros [[= -> ->]|[]]; now left.
  - destruct (String.eqb_spec k0 k') as [->|_]; simpl.
    + intros [[= -> ->]|H]; [now left | now right; right].
    + intros [[= -> ->]|H]; [now right; left|].
      destruct (IH H) as [?|?]; [now left | now right; right].
Qed.

Lemma dict_set_keys {V} (d : dict V) (k0 : string) (v0 : V) (k : string) :
  In k (map fst (dict_set d k0 v0)) <-> k = k0 \/ In k (map fst d).
Proof.
  induction d as [|[k' v'] d IH]; simpl.
  - intuition congruence.
  - destruct (String.eqb_spec k0 k') as [->|_]; simpl; [intuition congruence|].
    rewrite IH; intuition congruence.
Qed.

Lemma dict_set_NoDup {V} (d : dict V) (k0 : string) (v0 : V) :
  NoDup (map fst d) -> NoDup (map fst (dict_set d k0 v0)).
Proof.
  induction d as [|[k' v'] d IH]; simpl.
  - intros _; constructor; [intros []|constructor].
  - intro Hnd; inversion Hnd as [|? ? Hnin Hnd']; subst.
    destruct (String.eqb_spec k0 k') as [->|Hne]; simpl; [exact Hnd|].
    constructor; [|exact (IH Hnd')].
    rewrite dict_set_keys; intros [->|H]; [now apply Hne | contradiction].
Qed.

Lemma tick_log_call (c : call) (w : world) : tick (log_call c w) = S (tick w).
Proof. unfold tick, log_call; simpl; rewrite length_app; simpl; lia. Qed.

Lemma last_char_app (a b : string) :
  b <> "" -> last_char (a ++ b) = last_char b.
Proof.
  intro Hb; induction a as [|x a IH]; simpl; [reflexivity|].
  rewrite IH; destruct a; simpl; [|reflexivity].
  destruct b; [contradiction | reflexivity].
Qed.

Lemma str_app_cancel_l (a b c : string) : a ++ b = a ++ c -> b = c.
Proof. induction a as [|x a IH]; simpl; [auto | intros [= H]; auto]. Qed.

(** The three research queries are pairwise distinct, whatever the
    company and the industry: their last characters differ. *)
Lemma search_queries_NoDup (industry company_name : string) :
  NoDup (search_queries industry company_name).
Proof.
  unfold search_queries.
  repeat constructor; simpl.
  - intros [H|[H|[]]]; apply (f_equal last_char) in H;
      rewrite !last_char_app in H by discriminate; discriminate.
  - intros [H|[]]; apply (f_equal last_char) in H;
      rewrite !last_char_app in H by discriminate; discriminate.
  - intros [].
Qed.

Lemma research_outcomes_keys f n queries :
  map fst (research_outcomes f n queries) = queries.
Proof.
  revert n; induction queries as [|q queries IH]; intro n; simpl; [|rewrite IH]; reflexivity.
Qed.

Lemma research_entries_keys outs q :
  In q (map fst (research_entries outs)) -> In q (map fst outs).
Proof.
  induction outs as [|[q' [rs|e]] outs IH]; simpl; [auto| |].
  - intros [->|H]; [now left | right; auto].
  - intro H; right; auto.
Qed.

Lemma research_entries_get outs q o :
  NoDup (map fst outs) -> In (q, o) outs ->
  dict_get q (research_entries outs) =
    match o with Ok results => Some (map to_insight results) | Raise _ => None end.
Proof.
  induction outs as [|[q' o'] outs IH]; simpl; [contradiction|].
  intros Hnd Hin; inversion Hnd as [|? ? Hnin Hnd']; subst.
  assert (Hfresh : forall o2, In (q', o2) outs -> False).
  { intros o2 H2; apply Hnin; change q' with (fst (q', o2)); now apply in_map. }
  destruct Hin as [[= -> ->]|Hin].
  - destruct o as [rs|e]; simpl; [now rewrite String.eqb_refl|].
    destruct (dict_get q (research_entries outs)) eqn:G; [|reflexivity].
    apply dict_get_In in G.
    exfalso; apply Hnin.
    apply research_entries_keys; change q with (fst (q, l)); now apply in_map.
  - destruct (String.eqb_spec q q') as [->|Hne]; [exfalso; exact (Hfresh o Hin)|].
    destruct o' as [rs|e]; simpl; [|now apply IH].
    apply String.eqb_neq in Hne; rewrite Hne; now apply IH.
Qed.

Lemma research_entries_count outs :
  length (research_entries outs) + count_raise outs = length outs /\
  length (research_errors outs) = count_raise outs.
Proof.
  unfold count_raise.
  induction outs as [|[q [rs|e]] outs [IH1 IH2]]; simpl; lia.
Qed.

(** ** Substring tests *)

Lemma prefix_spec (sub s : string) :
  String.prefix sub s = true <-> exists b, s = sub ++ b.
Proof.
  revert s; induction sub as [|c sub IH]; intro s; simpl.
  - split; [eauto | destruct s; reflexivity].
  - destruct s as [|c' s]; simpl.
    + split; [discriminate | intros [b Hb]; discriminate].
    + destruct (ascii_dec c c') as [<-|Hne].
      * rewrite IH; split; intros [b Hb]; exists b; [now rewrite Hb | now injection Hb].
      * split; [discriminate | intros [b Hb]; injection Hb; intros; congruence].
Qed.

Lemma py_in_spec (sub s : string) : Py.py_in sub s = true <-> substring_of sub s.
Proof.
  unfold substring_of; induction s as [|c s IH]; cbn [Py.py_in];
    rewrite orb_true_iff, prefix_spec.
  - split.
    + intros [[b Hb]|H]; [|discriminate]. exists "", b; exact Hb.
    + intros [a [b Hab]]; left; exists b.
      destruct a; [exact Hab | discriminate].
  - rewrite IH; split.
    + intros [[b Hb]|[a [b Hab]]].
      * exists "", b; exact Hb.
      * exists (String c a), b; simpl; now rewrite Hab.
    + intros [a [b Hab]]; destruct a as [|x a].
      * left; exists b; exact Hab.
      * right; exists a, b; now injection Hab.
Qed.

(** ** Parsing the use cases *)

Lemma split_aux_no_marker (s : string) :
  forall fuel cur, Re.has_marker s = false -> String.length s < fuel ->
  Re.split_aux fuel s cur = [cur ++ s].
Proof.
  induction s as [|c s IH]; intros fuel cur Hm Hlen;
    (destruct fuel as [|fuel]; [simpl in Hlen; lia|]).
  - simpl; now rewrite str_app_nil_r.
  - cbn [Re.has_marker] in Hm; cbn [Re.split_aux].
    destruct (Re.match_marker (String c s)) as [rest|]; [discriminate|].
    rewrite IH by (exact Hm || (simpl in Hlen; lia)).
    now rewrite str_app_assoc.
Qed.

Lemma split_num_no_marker (s : string) :
  Re.has_marker s = false -> Re.split_num s = [s].
Proof. intro Hm; unfold Re.split_num; rewrite split_aux_no_marker; auto. Qed.

Section Proofs.

Variable exa_search : nat -> string -> nat -> option string -> result (list exa_result).
Variable generate_reply : nat -> string -> string -> result string.
Variable clock : nat -> datetime.

(** ** The research loop *)

Lemma research_loop_spec (queries : list string) :
  forall (acc : dict (list insight)) (w : world),
  NoDup queries ->
  (forall q, In q queries -> dict_get q acc = None) ->
  research_loop exa_search queries acc w =
    (Ok (acc ++ research_entries (research_outcomes exa_search (tick w) queries))%list,
     mk_world (calls w ++ map (fun q => CallSearch q 3 (Some "neural")) queries)%list
              (msgs w ++ research_errors (research_outcomes exa_search (tick w) queries))%list
              (files w)).
Proof.
  induction queries as [|q queries IH]; intros acc w Hnd Hfresh; simpl.
  - destruct w; simpl; now rewrite !app_nil_r.
  - inversion Hnd as [|? ? Hnin Hnd']; subst.
    unfold bind, try_except, exa_call, ret, st_error.
    destruct (exa_search (tick w) q 3 (Some "neural")) as [results|e] eqn:E.
    + rewrite dict_set_new by (apply Hfresh; now left).
      rewrite IH; [| exact Hnd' |].
      * rewrite tick_log_call; simpl.
        rewrite <- !app_assoc; reflexivity.
      * intros q' Hq'. rewrite dict_get_app, Hfresh by (now right).
        simpl. destruct (String.eqb_spec q' q) as [->|_]; [contradiction | reflexivity].
    + rewrite IH; [| exact Hnd' | intros q' Hq'; apply Hfresh; now right].
      unfold tick; simpl; rewrite length_app, Nat.add_1_r.
      rewrite <- !app_assoc; reflexivity.
Qed.

(** ** The resource collector *)

Lemma platform_loop_spec (use_case : string) (ps : list string) :
  forall resources w,
  exists w',
    platform_loop exa_search use_case ps resources w =
      (Ok (resources ++ accumulated exa_search (tick w) use_case ps)%list, w') /\
    tick w' = tick w + length ps /\ files w' = files w.
Proof.
  induction ps as [|platform ps IH]; intros resources w; simpl.
  - exists w; rewrite app_nil_r; repeat split; lia.
  - unfold bind, try_except, exa_call, ret, st_warning.
    destruct (exa_search (tick w) (resource_query use_case platform) 3 None)
      as [results|e] eqn:E; simpl.
    + destruct (IH (resources ++ platform_resources platform results)%list
                   (log_call (CallSearch (resource_query use_case platform) 3 None) w))
        as (w' & H1 & H2 & H3).
      rewrite tick_log_call in H1, H2.
      exists w'; rewrite H1, <- app_assoc.
      repeat split; [lia | exact H3].
    + match goal with
      | |- exists _, platform_loop _ _ _ _ ?w1 = _ /\ _ =>
          destruct (IH resources w1) as (w' & H1 & H2 & H3);
          assert (Ht : tick w1 = S (tick w))
            by (unfold tick; simpl; rewrite length_app; simpl; lia)
      end.
      rewrite Ht in H1, H2.
      exists w'; rewrite H1.
      repeat split; [lia | exact H3].
Qed.

Lemma accumulated_all_raise (use_case : string) (ps : list string) :
  (forall n p, In p ps -> is_raise (exa_search n (resource_query use_case p) 3 None) = true) ->
  forall n, accumulated exa_search n use_case ps = [].
Proof.
  intro Hdown; induction ps as [|p ps IH]; intro n; simpl; [reflexivity|].
  specialize (Hdown n p (or_introl eq_refl)) as Hp.
  destruct (exa_search n (resource_query use_case p) 3 None); [discriminate|].
  simpl; apply IH; intros m p' Hp'; apply Hdown; now right.
Qed.

Lemma use_case_loop_spec (use_cases : list string) :
  forall resource_map w,
  (forall uc v, In (uc, v) resource_map ->
     length v <= 3 /\ exists n, v = firstn 3 (accumulated exa_search n uc platforms)) ->
  NoDup (map fst resource_map) ->
  exists resource_map' w',
    use_case_loop exa_search use_cases resource_map w = (Ok resource_map', w') /\
    (forall uc v, In (uc, v) resource_map' ->
       length v <= 3 /\ exists n, v = firstn 3 (accumulated exa_search n uc platforms)) /\
    NoDup (map fst resource_map') /\
    (forall k, In k (map fst resource_map') <-> In k use_cases \/ In k (map fst resource_map)) /\
    files w' = files w.
Proof.
  induction use_cases as [|use_case use_cases IH]; intros resource_map w Hinv Hnd.
  - exists resource_map, w; split; [reflexivity|]; split; [exact Hinv|].
    split; [exact Hnd|]; split; [|reflexivity].
    intro k; simpl; tauto.
  - cbn [use_case_loop]; unfold bind.
    destruct (platform_loop_spec use_case platforms [] w) as (w1 & H1 & _ & H3).
    rewrite H1, app_nil_l; cbv beta iota.
    destruct (IH (dict_set resource_map use_case
                    (firstn 3 (accumulated exa_search (tick w) use_case platforms))) w1)
      as (resource_map' & w' & E & Hinv' & Hnd' & Hkeys' & Hfiles').
    + intros uc v Hin; apply dict_set_In in Hin as [[-> ->]|Hin]; [|exact (Hinv _ _ Hin)].
      split; [apply firstn_le_length | eauto].
    + now apply dict_set_NoDup.
    + exists resource_map', w'; split; [exact E|]; split; [exact Hinv'|].
      split; [exact Hnd'|]; split; [|congruence].
      intro k; rewrite Hkeys', dict_set_keys; simpl; intuition congruence.
Qed.

(** ** The research stage *)

Lemma research_company_ok (company_name : string) (w : world) (r : string) :
  generate_reply (tick w) "industry_analyzer" (industry_prompt company_name) = Ok r ->
  research_company exa_search generate_reply company_name w =
    (Ok (research_entries
           (research_outcomes exa_search (S (tick w))
              (search_queries (Py.strip r) company_name)), Py.strip r),
     mk_world (calls w ++ CallLLM "industry_analyzer" (industry_prompt company_name)
                 :: map (fun q => CallSearch q 3 (Some "neural"))
                        (search_queries (Py.strip r) company_name))%list
              (msgs w ++ research_errors
                 (research_outcomes exa_search (S (tick w))
                    (search_queries (Py.strip r) company_name)))%list
              (files w)).
Proof.
  intro Hr.
  unfold research_company, determine_industry, llm_call, bind, ret.
  rewrite Hr.
  rewrite research_loop_spec;
    [| apply search_queries_NoDup | intros; reflexivity].
  rewrite tick_log_call; simpl.
  now rewrite <- app_assoc.
Qed.

(** C2 (amended): an exception of the LLM call propagates out of
    [determine_industry] and [research_company] unchanged, before any
    search; a reply is stripped and returned as the label with no
    emptiness check, so a blank reply gives the label [""] and the research
    stage goes on with it. *)
Theorem determine_industry_outcomes (company_name : string) (w : world) :
  (forall e : exn,
     generate_reply (tick w) "industry_analyzer" (industry_prompt company_name) = Raise e ->
     research_company exa_search generate_reply company_name w =
       (Raise e, log_call (CallLLM "industry_analyzer" (industry_prompt company_name)) w)) /\
  (forall r : string,
     generate_reply (tick w) "industry_analyzer" (industry_prompt company_name) = Ok r ->
     fst (determine_industry generate_reply company_name w) = Ok (Py.strip r) /\
     exists research_results,
       fst (research_company exa_search generate_reply company_name w)
       = Ok (research_results, Py.strip r)).
Proof.
  split.
  - intros e He.
    unfold research_company, determine_industry, llm_call, bind, ret.
    now rewrite He.
  - intros r Hr; split.
    + unfold determine_industry, llm_call, bind, ret; simpl; now rewrite Hr.
    + rewrite (research_company_ok company_name w r Hr); simpl; eauto.
Qed.

(** C4: every one of the three searches is issued whatever the others
    answered; the stage returns normally; a query whose search raised has
    no key in the map, a query whose search returned maps to its results;
    one [st.error] message is recorded per failed search; so with exactly
    one failure the map has 2 entries and one message is recorded. *)
Theorem research_company_partial_failure (company_name : string) (w : world) (r : string) :
  generate_reply (tick w) "industry_analyzer" (industry_prompt company_name) = Ok r ->
  let queries := search_queries (Py.strip r) company_name in
  let outs := research_outcomes exa_search (S (tick w)) queries in
  exists research_results w',
    research_company exa_search generate_reply company_name w
      = (Ok (research_results, Py.strip r), w') /\
    calls w' = (calls w ++ CallLLM "industry_analyzer" (industry_prompt company_name)
                 :: map (fun q => CallSearch q 3 (Some "neural")) queries)%list /\
    (forall q o, In (q, o) outs ->
       dict_get q research_results =
         match o with Ok results => Some (map to_insight results) | Raise _ => None end) /\
    msgs w' = (msgs w ++ research_errors outs)%list /\
    length research_results = 3 - count_raise outs /\
    length (msgs w') = length (msgs w) + count_raise outs /\
    (count_raise outs = 1 ->
       length research_results = 2 /\ length (msgs w') = S (length (msgs w))).
Proof.
  intros Hr queries outs.
  rewrite (research_company_ok company_name w r Hr).
  do 2 eexists; split; [reflexivity|]; cbn [calls msgs].
  fold queries outs.
  assert (Hkeys : map fst outs = queries) by apply research_outcomes_keys.
  assert (Hlen : length outs = 3)
    by (rewrite <- (length_map fst), Hkeys; reflexivity).
  destruct (research_entries_count outs) as [C1 C2].
  split; [reflexivity|].
  split.
  { intros q o Hin; apply research_entries_get; [|exact Hin].
    rewrite Hkeys; apply search_queries_NoDup. }
  split; [reflexivity|].
  rewrite length_app, C2.
  repeat split; lia.
Qed.

(** C5: with the label [industry] returned by the classifier, the research
    stage issues exactly the three templated searches, and its map has at
    most 3 keys, each one of those queries; for "Acme Robotics" classified
    as "Industrial Robotics" the queries are the three of the spec. *)
Theorem research_company_queries (company_name : string) (w : world) (r : string) :
  generate_reply (tick w) "industry_analyzer" (industry_prompt company_name) = Ok r ->
  exists research_results w',
    research_company exa_search generate_reply company_name w
      = (Ok (research_results, Py.strip r), w') /\
    calls w' = (calls w ++ CallLLM "industry_analyzer" (industry_prompt company_name)
                 :: map (fun q => CallSearch q 3 (Some "neural"))
                        (search_queries (Py.strip r) company_name))%list /\
    length research_results <= 3 /\
    (forall q, In q (map fst research_results) ->
       In q (search_queries (Py.strip r) company_name)) /\
    search_queries "Industrial Robotics" "Acme Robotics" =
      ["Industrial Robotics industry overview and trends";
       "Acme Robotics strategic focus and market position";
       "Industrial Robotics technological innovations and future outlook"].
Proof.
  intro Hr.
  rewrite (research_company_ok company_name w r Hr).
  do 2 eexists; split; [reflexivity|]; cbn [calls].
  split; [reflexivity|].
  set (outs := research_outcomes exa_search (S (tick w))
                 (search_queries (Py.strip r) company_name)).
  assert (Hkeys : map fst outs = search_queries (Py.strip r) company_name)
    by apply research_outcomes_keys.
  destruct (research_entries_count outs) as [C1 _].
  split; [|split; [|reflexivity]].
  - assert (Hlen : length outs = 3)
      by (rewrite <- (length_map fst), Hkeys; reflexivity).
    lia.
  - intros q Hq; rewrite <- Hkeys; now apply research_entries_keys.
Qed.

(** C8: every entry of the resource map has at most 3 resources: the
    first 3 of those accumulated, in the order kaggle, huggingface, github,
    over the three consecutive platform searches made for that use case. *)
Theorem collect_resource_assets_entries (use_cases : list string) (w : world) :
  exists resource_map w',
    collect_resource_assets exa_search use_cases w = (Ok resource_map, w') /\
    forall use_case v, In (use_case, v) resource_map ->
      length v <= 3 /\
      exists n, v = firstn 3 (kept "kaggle.com/datasets"
                                (exa_search n (resource_query use_case "kaggle.com/datasets") 3 None)
                              ++ kept "huggingface.co/datasets"
                                (exa_search (S n) (resource_query use_case "huggingface.co/datasets") 3 None)
                              ++ kept "github.com/datasets"
                                (exa_search (S (S n)) (resource_query use_case "github.com/datasets") 3 None))%list.
Proof.
  destruct (use_case_loop_spec use_cases [] w) as (resource_map & w' & E & Hinv & _);
    [intros uc v []|constructor|].
  exists resource_map, w'; split; [exact E|].
  intros use_case v Hin; destruct (Hinv use_case v Hin) as [Hlen [n Hv]].
  split; [exact Hlen|]; exists n; rewrite Hv; simpl; now rewrite app_nil_r.
Qed.

(** C10: the keys of the resource map are exactly the distinct use cases,
    and a use case whose platform searches all raise maps to the empty
    list rather than being left out. *)
Theorem collect_resource_assets_keys (use_cases : list string) (w : world) :
  exists resource_map w',
    collect_resource_assets exa_search use_cases w = (Ok resource_map, w') /\
    NoDup (map fst resource_map) /\
    (forall k, In k (map fst resource_map) <-> In k use_cases) /\
    (forall use_case, In use_case use_cases ->
       (forall n platform, In platform platforms ->
          is_raise (exa_search n (resource_query use_case platform) 3 None) = true) ->
       dict_get use_case resource_map = Some []).
Proof.
  destruct (use_case_loop_spec use_cases [] w)
    as (resource_map & w' & E & Hinv & Hnd & Hkeys & _);
    [intros uc v []|constructor|].
  exists resource_map, w'; split; [exact E|]; split; [exact Hnd|]; split.
  - intro k; rewrite Hkeys; simpl; tauto.
  - intros use_case Hin Hdown.
    assert (Hk : In use_case (map fst resource_map)) by (apply Hkeys; now left).
    destruct (dict_get_Some_of_key use_case resource_map Hk) as [v Hv].
    destruct (Hinv use_case v (dict_get_In _ _ _ Hv)) as [_ [n ->]].
    rewrite Hv, (accumulated_all_raise use_case platforms Hdown n); reflexivity.
Qed.

(** ** The whole run and the proposal *)

(** C9: when the use-case generation call raises, the exception leaves
    [generate_use_cases] uncaught, and the four phases of the run stop with
    it: [run_stages] raises, writes no file, and once the classifier has
    answered, the exception is that very one and the generation call is
    the last call made: no resource search and no clock read, so no
    proposal is assembled. *)
Theorem run_stages_generation_failure (company_name : string) (w : world) (e : exn) :
  (forall n prompt, generate_reply n "use_case_generator" prompt = Raise e) ->
  (forall industry research_insights w0,
     fst (generate_use_cases generate_reply company_name industry research_insights w0)
       = Raise e) /\
  exists e' w',
    run_stages exa_search generate_reply clock company_name w = (Raise e', w') /\
    files w' = files w /\
    (forall r, generate_reply (tick w) "industry_analyzer" (industry_prompt company_name) = Ok r ->
       e' = e /\
       exists prompt,
         calls w' = (calls w ++ CallLLM "industry_analyzer" (industry_prompt company_name)
                      :: map (fun q => CallSearch q 3 (Some "neural"))
                             (search_queries (Py.strip r) company_name)
                      ++ [CallLLM "use_case_generator" prompt])%list).
Proof.
  intros Hgen; split.
  { intros industry research_insights w0.
    unfold generate_use_cases, llm_call, bind; simpl; now rewrite Hgen. }
  unfold run_stages.
  destruct (generate_reply (tick w) "industry_analyzer" (industry_prompt company_name))
    as [r|e0] eqn:Hc.
  - unfold bind at 1; rewrite (research_company_ok company_name w r Hc).
    cbv beta iota.
    unfold generate_use_cases, llm_call, bind at 1 2; rewrite Hgen.
    do 2 eexists; split; [reflexivity|]; split; [reflexivity|].
    intros r' Hr'; injection Hr' as <-.
    split; [reflexivity|]; eexists; cbn [calls log_call].
    rewrite <- app_assoc; reflexivity.
  - assert (Hr : research_company exa_search generate_reply company_name w =
                  (Raise e0, log_call (CallLLM "industry_analyzer"
                                               (industry_prompt company_name)) w))
      by (unfold research_company, determine_industry, llm_call, bind; now rewrite Hc).
    unfold bind at 1; rewrite Hr.
    do 2 eexists; split; [reflexivity|]; split; [reflexivity|].
    intros r' Hr'; congruence.
Qed.

(** C1 (amended): [generate_final_proposal] takes no timestamp; it reads
    the clock once ([datetime.now()]), and two calls with the same
    arguments give the same document whenever the clock shows the same
    year, month and day at both calls. *)
Theorem generate_final_proposal_same_date (company_name industry : string)
  (use_cases : list string) (resource_map : dict (list resource))
  (research_insights : dict (list insight)) (w1 w2 : world) :
  dt_year (clock (tick w1)) = dt_year (clock (tick w2)) ->
  dt_month (clock (tick w1)) = dt_month (clock (tick w2)) ->
  dt_day (clock (tick w1)) = dt_day (clock (tick w2)) ->
  fst (generate_final_proposal clock company_name industry use_cases resource_map
         research_insights w1) =
  fst (generate_final_proposal clock company_name industry use_cases resource_map
         research_insights w2) /\
  calls (snd (generate_final_proposal clock company_name industry use_cases resource_map
                research_insights w1)) = (calls w1 ++ [CallClock])%list.
Proof.
  intros Hy Hm Hd.
  unfold generate_final_proposal, datetime_now, bind, ret; cbn [fst snd].
  unfold strftime_BdY; rewrite Hy, Hm, Hd; split; reflexivity.
Qed.

End Proofs.

Lemma determine_industry_outcomes_witness :
  research_company Fixtures.search_dated Fixtures.llm_down "Acme Robotics" Fixtures.w0
    = (Raise "rate limit",
       log_call (CallLLM "industry_analyzer" (industry_prompt "Acme Robotics")) Fixtures.w0) /\
  fst (determine_industry Fixtures.llm_blank "Acme Robotics" Fixtures.w0)
    = Ok (Py.strip "   ").
Proof.
  split.
  - apply (proj1 (determine_industry_outcomes Fixtures.search_dated Fixtures.llm_down
                    "Acme Robotics" Fixtures.w0)).
    reflexivity.
  - apply (proj2 (determine_industry_outcomes Fixtures.search_dated Fixtures.llm_blank
                    "Acme Robotics" Fixtures.w0) "   ").
    reflexivity.
Defined.

(** C2 fails: a blank LLM reply is not an error; [research_company] returns
    normally with the empty industry label. *)
Lemma determine_industry_blank_label :
  exists research_results,
    fst (research_company Fixtures.search_dated Fixtures.llm_blank "Acme Robotics" Fixtures.w0)
    = Ok (research_results, "").
Proof. eexists; vm_compute; reflexivity. Qed.

Lemma research_company_partial_failure_witness :
  count_raise (research_outcomes Fixtures.search_second_fails 1
                 (search_queries "Industrial Robotics" "Acme Robotics")) = 1 /\
  exists research_results w',
    research_company Fixtures.search_second_fails Fixtures.llm_acme "Acme Robotics" Fixtures.w0
      = (Ok (research_results, "Industrial Robotics"), w') /\
    length research_results = 2 /\ length (msgs w') = 1.
Proof.
  split; [vm_compute; reflexivity|].
  destruct (research_company_partial_failure Fixtures.search_second_fails Fixtures.llm_acme
              "Acme Robotics" Fixtures.w0 " Industrial Robotics" eq_refl)
    as (research_results & w' & H1 & _ & _ & _ & _ & _ & H7).
  destruct H7 as [H8 H9]; [vm_compute; reflexivity|].
  exists research_results, w'; split; [exact H1|]; split; [exact H8|].
  rewrite H9; reflexivity.
Defined.

Lemma research_company_queries_witness :
  exists research_results w',
    research_company Fixtures.search_dated Fixtures.llm_acme "Acme Robotics" Fixtures.w0
      = (Ok (research_results, "Industrial Robotics"), w') /\
    calls w' = [CallLLM "industry_analyzer" (industry_prompt "Acme Robotics");
                CallSearch "Industrial Robotics industry overview and trends" 3 (Some "neural");
                CallSearch "Acme Robotics strategic focus and market position" 3 (Some "neural");
                CallSearch "Industrial Robotics technological innovations and future outlook"
                           3 (Some "neural")].
Proof.
  destruct (research_company_queries Fixtures.search_dated Fixtures.llm_acme
              "Acme Robotics" Fixtures.w0 " Industrial Robotics" eq_refl)
    as (research_results & w' & H1 & H2 & _).
  exists research_results, w'; split; [exact H1|].
  rewrite H2; reflexivity.
Defined.

(** C3 (code bug): the search service answers with a result dated
    2024-05-01; [research_company] keeps title, url and summary but not the
    date, so the proposal never shows it, although [generate_final_proposal]
    renders the date of a record that carries one. *)
Theorem research_drops_published_date :
  res_published_date Fixtures.dated_result = Some "2024-05-01" /\
  fst (research_company Fixtures.search_dated Fixtures.llm_acme "Acme Robotics" Fixtures.w0)
    = Ok ([("Industrial Robotics industry overview and trends",
            [mk_insight "Robotics market 2024" "kaggle.com/datasets/x/robotics-data"
                        "Market summary" None]);
           ("Acme Robotics strategic focus and market position",
            [mk_insight "Robotics market 2024" "kaggle.com/datasets/x/robotics-data"
                        "Market summary" None]);
           ("Industrial Robotics technological innovations and future outlook",
            [mk_insight "Robotics market 2024" "kaggle.com/datasets/x/robotics-data"
                        "Market summary" None])],
          "Industrial Robotics") /\
  match fst (run_stages Fixtures.search_dated Fixtures.llm_acme Fixtures.clock_one_day
               "Acme Robotics" Fixtures.w0) with
  | Ok (_, _, _, _, proposal) => Py.py_in "2024-05-01" proposal = false
  | _ => False
  end /\
  Py.py_in " (2024-05-01)"
    (insight_markdown (mk_insight "Robotics market 2024" "kaggle.com/datasets/x/robotics-data"
                                  "Market summary" (Some "2024-05-01"))) = true.
Proof. repeat split; vm_compute; reflexivity. Qed.

(** C6 (amended): the response is split at every [\d+\.] marker, each
    piece stripped and the blank ones dropped, so no element of the result
    is empty; "1. Improve routing. 2. Predict churn." parses to
    ["Improve routing."; "Predict churn."]; a response without a marker
    parses to the one-element list of its stripped text when that text is
    non-empty, and to the empty list when the response is blank. *)
Theorem parse_use_cases_spec :
  parse_use_cases "1. Improve routing. 2. Predict churn."
    = ["Improve routing."; "Predict churn."] /\
  parse_use_cases "A single unified recommendation engine."
    = ["A single unified recommendation engine."] /\
  (forall text case, In case (parse_use_cases text) -> case <> "") /\
  (forall text, Re.has_marker text = false ->
     parse_use_cases text =
       if String.eqb (Py.strip text) "" then [] else [Py.strip text]).
Proof.
  split; [vm_compute; reflexivity|].
  split; [vm_compute; reflexivity|].
  split.
  - intros text case Hin; unfold parse_use_cases in Hin.
    apply in_map_iff in Hin as (piece & <- & Hin).
    apply filter_In in Hin as [_ Hne].
    apply negb_true_iff, String.eqb_neq in Hne; exact Hne.
  - intros text Hm; unfold parse_use_cases.
    rewrite split_num_no_marker by exact Hm; simpl.
    destruct (String.eqb (Py.strip text) ""); reflexivity.
Qed.

Lemma parse_use_cases_spec_witness :
  parse_use_cases "  Forecast demand.  " = ["Forecast demand."].
Proof.
  rewrite (proj2 (proj2 (proj2 parse_use_cases_spec)) "  Forecast demand.  ")
    by (vm_compute; reflexivity).
  vm_compute; reflexivity.
Defined.

(** C6 fails on a blank response: it has no marker, yet its parse is the
    empty list, not the one-element list of its stripped text. *)
Lemma parse_use_cases_blank :
  Re.has_marker "   " = false /\ parse_use_cases "   " <> [Py.strip "   "].
Proof. split; [reflexivity | vm_compute; discriminate]. Qed.

(** C7: a search result of a platform is kept, as the resource of its url
    and title, exactly when its url contains the platform string and its
    lower-cased url contains "dataset" or "data"; for kaggle.com/datasets
    the url "kaggle.com/datasets/x/robotics-data" is kept and
    "kaggle.com/notebooks/x" is not. *)
Theorem platform_resources_filter (platform : string) (results : list exa_result)
  (x : resource) :
  (In x (platform_resources platform results) <->
   exists res, In res results /\ x = mk_resource (res_url res) (res_title res) /\
     substring_of platform (res_url res) /\
     (substring_of "dataset" (Py.lower (res_url res)) \/
      substring_of "data" (Py.lower (res_url res)))) /\
  keep_result "kaggle.com/datasets"
    (mk_exa_result "Robotics" "kaggle.com/datasets/x/robotics-data" "" None) = true /\
  keep_result "kaggle.com/datasets"
    (mk_exa_result "Notebook" "kaggle.com/notebooks/x" "" None) = false.
Proof.
  split; [|split; reflexivity].
  unfold platform_resources; rewrite in_map_iff.
  split.
  - intros (res & <- & Hin); apply filter_In in Hin as [Hin Hk].
    unfold keep_result in Hk; simpl in Hk.
    rewrite andb_true_iff, !orb_true_iff, !py_in_spec in Hk.
    exists res; repeat split; [exact Hin | tauto | intuition discriminate].
  - intros (res & Hin & -> & Hp & Hd).
    exists res; split; [reflexivity|].
    apply filter_In; split; [exact Hin|].
    unfold keep_result; simpl.
    rewrite andb_true_iff, !orb_true_iff, !py_in_spec; tauto.
Qed.

Lemma collect_resource_assets_keys_witness :
  exists resource_map w',
    collect_resource_assets Fixtures.search_down ["Improve routing."; "Predict churn."]
      Fixtures.w0 = (Ok resource_map, w') /\
    dict_get "Improve routing." resource_map = Some [].
Proof.
  destruct (collect_resource_assets_keys Fixtures.search_down
              ["Improve routing."; "Predict churn."] Fixtures.w0)
    as (resource_map & w' & E & _ & _ & Hdown).
  exists resource_map, w'; split; [exact E|].
  apply Hdown; [left; reflexivity | intros; reflexivity].
Defined.

Lemma run_stages_generation_failure_witness :
  fst (generate_use_cases Fixtures.llm_generation_fails "Acme Robotics" "Industrial Robotics"
         [] Fixtures.w0) = Raise "rate limit" /\
  exists e' w',
    run_stages Fixtures.search_dated Fixtures.llm_generation_fails Fixtures.clock_one_day
      "Acme Robotics" Fixtures.w0 = (Raise e', w') /\
    files w' = [] /\ e' = "rate limit".
Proof.
  destruct (run_stages_generation_failure Fixtures.search_dated Fixtures.llm_generation_fails
              Fixtures.clock_one_day "Acme Robotics" Fixtures.w0 "rate limit")
    as [Hg (e' & w' & E & Hf & He)]; [intros; reflexivity |].
  split; [apply Hg|].
  exists e', w'; split; [exact E|]; split; [exact Hf|].
  apply (He "Industrial Robotics"); reflexivity.
Defined.

Lemma generate_final_proposal_same_date_witness :
  fst (generate_final_proposal Fixtures.clock_one_day "Acme Robotics" "Industrial Robotics"
         ["Improve routing."] [] [] Fixtures.w0) =
  fst (generate_final_proposal Fixtures.clock_one_day "Acme Robotics" "Industrial Robotics"
         ["Improve routing."] [] []
         (mk_world [CallClock; CallClock; CallClock; CallClock; CallClock] [] [])).
Proof.
  apply (generate_final_proposal_same_date Fixtures.clock_one_day); reflexivity.
Defined.

(** C1 fails: [generate_final_proposal] has no timestamp argument, and two
    calls with identical arguments, one each side of midnight, return
    different documents. *)
Lemma generate_final_proposal_reads_clock :
  fst (generate_final_proposal Fixtures.clock_midnight "Acme Robotics" "Industrial Robotics"
         [] [] [] Fixtures.w0) <>
  fst (generate_final_proposal Fixtures.clock_midnight "Acme Robotics" "Industrial Robotics"
         [] [] []
         (snd (generate_final_proposal Fixtures.clock_midnight "Acme Robotics"
                 "Industrial Robotics" [] [] [] Fixtures.w0))).
Proof. vm_compute; discriminate. Qed.

(* ================================================================== *)
(** * Further properties of the code *)

(** ** [str.strip] *)

Lemma rev_str_acc (s acc : string) : Py.rev_str s acc = rev_s s ++ acc.
Proof.
  unfold rev_s; revert acc; induction s as [|c s IH]; intro acc; simpl; [reflexivity|].
  rewrite (IH (String c acc)), (IH (String c "")), str_app_assoc; reflexivity.
Qed.

Lemma rev_s_cons (c : ascii) (s : string) : rev_s (String c s) = rev_s s ++ String c "".
Proof. unfold rev_s at 1; simpl; apply rev_str_acc. Qed.

Lemma rev_s_app (a b : string) : rev_s (a ++ b) = rev_s b ++ rev_s a.
Proof.
  induction a as [|c a IH]; simpl.
  - unfold rev_s at 3; simpl; now rewrite str_app_nil_r.
  - rewrite !rev_s_cons, IH, str_app_assoc; reflexivity.
Qed.

Lemma rev_s_involutive (s : string) : rev_s (rev_s s) = s.
Proof.
  induction s as [|c s IH]; [reflexivity|].
  rewrite rev_s_cons, rev_s_app, IH; reflexivity.
Qed.

Lemma lstrip_clean (s : string) : starts_clean (Py.lstrip s).
Proof.
  induction s as [|c s IH]; simpl; [exact I|].
  destruct (Py.is_space c) eqn:E; [exact IH | exact E].
Qed.

Lemma lstrip_of_clean (s : string) : starts_clean s -> Py.lstrip s = s.
Proof. destruct s as [|c s]; simpl; [reflexivity | intros ->; reflexivity]. Qed.

Lemma lstrip_decomp (s : string) : exists p, s = p ++ Py.lstrip s.
Proof.
  induction s as [|c s [p Hp]]; simpl; [now exists ""|].
  destruct (Py.is_space c); [exists (String c p); simpl; now rewrite <- Hp | now exists ""].
Qed.

Lemma rstrip_decomp (u : string) : exists q, u = Py.rstrip u ++ q.
Proof.
  destruct (lstrip_decomp (rev_s u)) as [p Hp].
  exists (rev_s p); unfold Py.rstrip; fold (rev_s u).
  rewrite rev_str_acc, str_app_nil_r, <- rev_s_app, <- Hp.
  symmetry; apply rev_s_involutive.
Qed.

Lemma rstrip_idem (u : string) : Py.rstrip (Py.rstrip u) = Py.rstrip u.
Proof.
  unfold Py.rstrip; fold (rev_s u).
  rewrite !rev_str_acc, !str_app_nil_r; fold (rev_s (rev_s (Py.lstrip (rev_s u)))).
  rewrite rev_s_involutive, lstrip_of_clean by apply lstrip_clean; reflexivity.
Qed.

Lemma rstrip_clean (u : string) : starts_clean u -> starts_clean (Py.rstrip u).
Proof.
  destruct (rstrip_decomp u) as [q Hq].
  destruct (Py.rstrip u) as [|c r]; simpl; [trivial|].
  rewrite Hq; simpl; trivial.
Qed.

Lemma strip_idem (s : string) : Py.strip (Py.strip s) = Py.strip s.
Proof.
  unfold Py.strip.
  rewrite (lstrip_of_clean (Py.rstrip (Py.lstrip s)))
    by (apply rstrip_clean, lstrip_clean).
  apply rstrip_idem.
Qed.

Lemma strip_decomp (s : string) : exists a b, s = a ++ Py.strip s ++ b.
Proof.
  destruct (lstrip_decomp s) as [a Ha]; destruct (rstrip_decomp (Py.lstrip s)) as [b Hb].
  exists a, b; unfold Py.strip; rewrite <- Hb; exact Ha.
Qed.

(** ** The pieces of [re.split(r'\d+\.', text)] *)

Lemma has_marker_false_iff (s : string) :
  Re.has_marker s = false <-> forall p t, s = p ++ t -> Re.match_marker t = None.
Proof.
  induction s as [|c s IH].
  - split; [|reflexivity].
    intros _ p t H; destruct p; [simpl in H; now subst | discriminate].
  - cbn [Re.has_marker].
    destruct (Re.match_marker (String c s)) as [rest|] eqn:E; split.
    + discriminate.
    + intro H; rewrite (H "" (String c s) eq_refl) in E; discriminate.
    + intros Hs p t Hpt; destruct p as [|x p]; simpl in Hpt.
      * now subst.
      * injection Hpt as -> Hpt; exact (proj1 IH Hs p t Hpt).
    + intro H; apply IH; intros p t Hpt; apply (H (String c p)); simpl; now rewrite Hpt.
Qed.

Lemma digits_then_dot_app (t u r : string) :
  Re.digits_then_dot t = Some r -> Re.digits_then_dot (t ++ u) = Some (r ++ u).
Proof.
  induction t as [|c t IH]; simpl; [discriminate|].
  destruct (Py.is_digit c); [exact IH|].
  destruct (c =? "."%char)%char; [intros [= <-]; reflexivity | discriminate].
Qed.

Lemma match_marker_app (t u r : string) :
  Re.match_marker t = Some r -> Re.match_marker (t ++ u) = Some (r ++ u).
Proof.
  destruct t as [|c t]; simpl; [discriminate|].
  destruct (Py.is_digit c); [apply digits_then_dot_app | discriminate].
Qed.

Lemma digits_then_dot_shorter (t r : string) :
  Re.digits_then_dot t = Some r -> String.length r < String.length t.
Proof.
  induction t as [|c t IH]; simpl; [discriminate|].
  destruct (Py.is_digit c); [intro H; specialize (IH H); lia|].
  destruct (c =? "."%char)%char; [intros [= <-]; lia | discriminate].
Qed.

Lemma match_marker_shorter (t r : string) :
  Re.match_marker t = Some r -> String.length r < String.length t.
Proof.
  destruct t as [|c t]; simpl; [discriminate|].
  destruct (Py.is_digit c); [|discriminate].
  intro H; apply digits_then_dot_shorter in H; lia.
Qed.

(** A string read in front of [s] with no match starting inside it holds
    no marker of its own. *)
Lemma no_marker_prefix (cur s : string) :
  (forall p t, cur = p ++ t -> t <> "" -> Re.match_marker (t ++ s) = None) ->
  Re.has_marker cur = false.
Proof.
  intro H; apply has_marker_false_iff; intros p t Hpt.
  destruct t as [|c t]; [reflexivity|].
  destruct (Re.match_marker (String c t)) as [r|] eqn:E; [|reflexivity].
  apply (match_marker_app _ s) in E.
  rewrite (H p (String c t) Hpt ltac:(discriminate)) in E; discriminate.
Qed.

Lemma app_snoc_split (cur p t : string) (c : ascii) :
  cur ++ String c "" = p ++ t -> t <> "" ->
  exists t', t = t' ++ String c "" /\ cur = p ++ t'.
Proof.
  revert cur; induction p as [|y p IH]; intros cur Heq Ht; simpl in Heq.
  - exists cur; split; [symmetry; exact Heq | reflexivity].
  - destruct cur as [|z cur]; simpl in Heq.
    + injection Heq as _ Heq; destruct p, t; simpl in Heq; congruence.
    + injection Heq as -> Heq.
      destruct (IH cur Heq Ht) as [t' [-> ->]]; now exists t'.
Qed.

Lemma split_aux_pieces (fuel : nat) :
  forall s cur, String.length s < fuel ->
  (forall p t, cur = p ++ t -> t <> "" -> Re.match_marker (t ++ s) = None) ->
  forall x, In x (Re.split_aux fuel s cur) -> Re.has_marker x = false.
Proof.
  induction fuel as [|f IH]; intros s cur Hlen Hcur x Hx; [lia|].
  cbn [Re.split_aux] in Hx.
  destruct (Re.match_marker s) as [rest|] eqn:E.
  - destruct Hx as [<-|Hx]; [exact (no_marker_prefix cur s Hcur)|].
    apply (IH rest ""); [apply match_marker_shorter in E; lia| |exact Hx].
    intros p t Hpt Ht; destruct p, t; simpl in Hpt; congruence.
  - destruct s as [|c s].
    + destruct Hx as [<-|[]]; exact (no_marker_prefix cur "" Hcur).
    + apply (IH s (cur ++ String c "")); [simpl in Hlen; lia| |exact Hx].
      intros p t Hpt Ht.
      destruct (app_snoc_split cur p t c Hpt Ht) as [t' [-> Hcur']].
      rewrite str_app_assoc; simpl.
      destruct t' as [|y t']; [exact E|].
      exact (Hcur p (String y t') Hcur' ltac:(discriminate)).
Qed.

Lemma split_num_pieces (text x : string) :
  In x (Re.split_num text) -> Re.has_marker x = false.
Proof.
  apply split_aux_pieces; [simpl; lia|].
  intros p t Hpt Ht; destruct p, t; simpl in Hpt; congruence.
Qed.

Lemma strip_no_marker (x : string) :
  Re.has_marker x = false -> Re.has_marker (Py.strip x) = false.
Proof.
  destruct (strip_decomp x) as [a [b Hab]].
  rewrite !has_marker_false_iff; intros H p t Hpt.
  destruct (Re.match_marker t) as [r|] eqn:E; [|reflexivity].
  apply (match_marker_app _ b) in E.
  rewrite (H (a ++ p) (t ++ b)) in E; [discriminate|].
  rewrite Hab, Hpt, !str_app_assoc; reflexivity.
Qed.

(** ** Renderings of the use-case section *)

Lemma use_case_block_entries (use_case : string) (resource_map : dict (list resource)) :
  match dict_get use_case resource_map with
  | Some ((_ :: _) as resources) =>
      "#### Recommended Datasets:" ++ Py.nl
      ++ String.concat "" (map resource_markdown resources)
  | _ => ""
  end =
  match entries_of use_case resource_map with
  | [] => ""
  | resources =>
      "#### Recommended Datasets:" ++ Py.nl
      ++ String.concat "" (map resource_markdown resources)
  end.
Proof. unfold entries_of; destruct (dict_get use_case resource_map) as [[|]|]; reflexivity. Qed.

Lemma use_cases_markdown_entries (use_cases : list string) :
  forall idx rm1 rm2,
  (forall uc, In uc use_cases -> entries_of uc rm1 = entries_of uc rm2) ->
  use_cases_markdown idx use_cases rm1 = use_cases_markdown idx use_cases rm2.
Proof.
  induction use_cases as [|uc use_cases IH]; intros idx rm1 rm2 H; [reflexivity|].
  cbn [use_cases_markdown].
  rewrite !use_case_block_entries, (H uc (or_introl eq_refl)).
  rewrite (IH (S idx) rm1 rm2); [reflexivity|].
  intros uc' Hin; apply H; now right.
Qed.

Lemma use_cases_markdown_no_entries (use_cases : list string) :
  forall idx rm,
  (forall uc, In uc use_cases -> entries_of uc rm = []) ->
  use_cases_markdown idx use_cases rm = headings_only idx use_cases.
Proof.
  induction use_cases as [|uc use_cases IH]; intros idx rm H; [reflexivity|].
  cbn [use_cases_markdown headings_only].
  rewrite use_case_block_entries, (H uc (or_introl eq_refl)).
  rewrite (IH (S idx) rm); [|intros uc' Hin; apply H; now right].
  reflexivity.
Qed.

Lemma research_entries_keys_order outs :
  map fst (research_entries outs) = map fst (filter (fun qo => negb (is_raise (snd qo))) outs).
Proof.
  induction outs as [|[q [rs|e]] outs IH]; simpl; [reflexivity | now rewrite IH | exact IH].
Qed.

Lemma bind_ok {A B} (m : M A) (f : A -> M B) (w w' : world) (a : A) :
  m w = (Ok a, w') -> bind m f w = f a w'.
Proof. intro H; unfold bind; now rewrite H. Qed.

Lemma dict_set_key_order {V} (d : dict V) (k : string) (v : V) :
  map fst (dict_set d k v) = note_key (map fst d) k.
Proof.
  unfold note_key; induction d as [|[k' v'] d IH]; simpl; [reflexivity|].
  destruct (String.eqb_spec k k') as [->|_]; simpl; [reflexivity|].
  rewrite IH; destruct (existsb (String.eqb k) (map fst d)); reflexivity.
Qed.

Section Extras.

Variable exa_search : nat -> string -> nat -> option string -> result (list exa_result).
Variable generate_reply : nat -> string -> string -> result string.
Variable clock : nat -> datetime.

Lemma platform_loop_calls (use_case : string) (ps : list string) :
  forall resources w,
  exists resources' w',
    platform_loop exa_search use_case ps resources w = (Ok resources', w') /\
    calls w' = (calls w ++ map (fun platform => CallSearch (resource_query use_case platform) 3 None) ps)%list /\
    files w' = files w.
Proof.
  induction ps as [|platform ps IH]; intros resources w.
  - exists resources, w; simpl; now rewrite app_nil_r.
  - simpl; unfold bind, try_except, exa_call, ret, st_warning.
    destruct (exa_search (tick w) (resource_query use_case platform) 3 None)
      as [results|e]; simpl;
    match goal with
    | |- context [platform_loop _ _ ps ?r1 ?w1] =>
        destruct (IH r1 w1) as (resources' & w' & H1 & H2 & H3)
    end;
    exists resources', w'; (split; [exact H1|]); rewrite H2, H3; simpl;
    rewrite <- app_assoc; split; reflexivity.
Qed.

Lemma use_case_loop_calls (use_cases : list string) :
  forall resource_map w,
  exists resource_map' w',
    use_case_loop exa_search use_cases resource_map w = (Ok resource_map', w') /\
    calls w' = (calls w ++ resource_searches use_cases)%list /\ files w' = files w.
Proof.
  induction use_cases as [|use_case use_cases IH]; intros resource_map w.
  - exists resource_map, w; unfold resource_searches; simpl; now rewrite app_nil_r.
  - cbn [use_case_loop].
    destruct (platform_loop_calls use_case platforms [] w) as (resources & w1 & H1 & H2 & H3).
    rewrite (bind_ok _ _ _ _ _ H1).
    destruct (IH (dict_set resource_map use_case (firstn 3 resources)) w1)
      as (resource_map' & w' & E & C & F).
    exists resource_map', w'; split; [exact E|].
    rewrite C, F, H2, H3; unfold resource_searches; simpl.
    rewrite <- app_assoc; split; reflexivity.
Qed.

Lemma use_case_loop_key_order (use_cases : list string) :
  forall resource_map w,
  exists resource_map' w',
    use_case_loop exa_search use_cases resource_map w = (Ok resource_map', w') /\
    map fst resource_map' = fold_left note_key use_cases (map fst resource_map).
Proof.
  induction use_cases as [|use_case use_cases IH]; intros resource_map w.
  - exists resource_map, w; split; reflexivity.
  - cbn [use_case_loop].
    destruct (platform_loop_calls use_case platforms [] w) as (resources & w1 & H1 & _ & _).
    rewrite (bind_ok _ _ _ _ _ H1).
    destruct (IH (dict_set resource_map use_case (firstn 3 resources)) w1)
      as (resource_map' & w' & E & K).
    exists resource_map', w'; split; [exact E|].
    rewrite K, dict_set_key_order; reflexivity.
Qed.

End Extras.

Lemma generate_use_cases_ok (generate_reply : nat -> string -> string -> result string)
  (company_name industry : string) (research_insights : dict (list insight))
  (w : world) (g : string) :
  generate_reply (tick w) "use_case_generator"
    (use_case_prompt company_name industry research_insights) = Ok g ->
  generate_use_cases generate_reply company_name industry research_insights w =
    (Ok (parse_use_cases g),
     log_call (CallLLM "use_case_generator"
                 (use_case_prompt company_name industry research_insights)) w).
Proof. intro H; unfold generate_use_cases, llm_call, bind, ret; now rewrite H. Qed.

Section ExtraProperties.

Variable exa_search : nat -> string -> nat -> option string -> result (list exa_result).
Variable generate_reply : nat -> string -> string -> result string.
Variable clock : nat -> datetime.


(** X2: when the industry classifier and the use-case generator answer,
    the four phases always complete, whatever the search service does:
    the industry is the stripped label, the use cases are the parsed reply,
    no file is written, and the services are called in the order
    classifier, the three research searches, the generator, three resource
    searches per use case, the clock. *)
Theorem run_stages_success (company_name : string) (w : world) (r g : string) :
  generate_reply (tick w) "industry_analyzer" (industry_prompt company_name) = Ok r ->
  (forall prompt, generate_reply (4 + tick w) "use_case_generator" prompt = Ok g) ->
  exists research_insights resource_map proposal w',
    run_stages exa_search generate_reply clock company_name w =
      (Ok (Py.strip r, research_insights, parse_use_cases g, resource_map, proposal), w') /\
    files w' = files w /\
    calls w' =
      (calls w
       ++ CallLLM "industry_analyzer" (industry_prompt company_name)
          :: map (fun q => CallSearch q 3 (Some "neural"))
                 (search_queries (Py.strip r) company_name)
       ++ CallLLM "use_case_generator"
            (use_case_prompt company_name (Py.strip r) research_insights)
          :: resource_searches (parse_use_cases g) ++ [CallClock])%list.
Proof.
  intros Hr Hg.
  unfold run_stages.
  rewrite (bind_ok _ _ _ _ _ (research_company_ok exa_search generate_reply company_name w r Hr)).
  cbv beta iota.
  match goal with
  | |- context [bind (generate_use_cases _ ?c ?i ?ri) _ ?w1] =>
      assert (T : tick w1 = 4 + tick w)
        by (unfold tick; cbn [calls]; rewrite length_app; simpl; lia);
      rewrite (bind_ok _ _ _ _ _ (generate_use_cases_ok generate_reply c i ri w1 g
                                     ltac:(rewrite T; apply Hg)))
  end.
  match goal with
  | |- context [bind (collect_resource_assets _ ?ucs) _ ?w2] =>
      destruct (use_case_loop_calls exa_search ucs [] w2) as (rm & w3 & E3 & C3 & F3);
      unfold collect_resource_assets; rewrite (bind_ok _ _ _ _ _ E3)
  end.
  unfold generate_final_proposal, datetime_now, bind, ret.
  eexists _, _, _, _; split; [reflexivity|].
  cbn [files calls log_call]; rewrite F3, C3; cbn [files calls log_call].
  split; [reflexivity|].
  rewrite <- !app_assoc; reflexivity.
Qed.

(** X3: the resource collector never fails and never asks the language
    model: for any list of use cases it returns a resource map, issues
    exactly the searches "\"use case\" dataset site:platform" with three
    results, for each use case in order and each platform in order, and
    writes no file. *)
Theorem collect_resource_assets_calls (use_cases : list string) (w : world) :
  exists resource_map w',
    collect_resource_assets exa_search use_cases w = (Ok resource_map, w') /\
    calls w' = (calls w ++ resource_searches use_cases)%list /\
    files w' = files w.
Proof. apply use_case_loop_calls. Qed.

(** X4: when the industry classifier raises, the four phases stop with
    that exception right after the classifier call: no search, no use-case
    generation, no message and no file. *)
Theorem run_stages_industry_failure (company_name : string) (w : world) (e : exn) :
  generate_reply (tick w) "industry_analyzer" (industry_prompt company_name) = Raise e ->
  run_stages exa_search generate_reply clock company_name w =
    (Raise e, log_call (CallLLM "industry_analyzer" (industry_prompt company_name)) w).
Proof.
  intro He.
  unfold run_stages, research_company, determine_industry, llm_call, bind; cbv beta.
  rewrite He; reflexivity.
Qed.

(** X5: the industry label [determine_industry] returns is already
    stripped: stripping it again changes nothing. *)
Theorem determine_industry_stripped (company_name : string) (w : world) (label : string) :
  fst (determine_industry generate_reply company_name w) = Ok label ->
  Py.strip label = label.
Proof.
  unfold determine_industry, llm_call, bind, ret; simpl.
  destruct (generate_reply (tick w) "industry_analyzer" (industry_prompt company_name));
    simpl; intro H; [|discriminate].
  injection H as <-; apply strip_idem.
Qed.

(** X6: every use case [generate_use_cases] extracts is already stripped. *)
Theorem parse_use_cases_stripped (text x : string) :
  In x (parse_use_cases text) -> Py.strip x = x.
Proof.
  unfold parse_use_cases; rewrite in_map_iff.
  intros (y & <- & _); apply strip_idem.
Qed.

(** X7: no use case [generate_use_cases] extracts contains a numbering
    marker (digits followed by a dot) anywhere. *)
Theorem parse_use_cases_no_marker (text x : string) :
  In x (parse_use_cases text) -> Re.has_marker x = false.
Proof.
  unfold parse_use_cases; rewrite in_map_iff.
  intros (y & <- & Hy); apply filter_In in Hy as [Hy _].
  apply strip_no_marker, (split_num_pieces text), Hy.
Qed.

(** X8: the keys of the research map are the queries whose search
    answered, in the order of the three query templates. *)
Theorem research_company_key_order (company_name : string) (w : world) (r : string) :
  generate_reply (tick w) "industry_analyzer" (industry_prompt company_name) = Ok r ->
  exists research_insights w',
    research_company exa_search generate_reply company_name w =
      (Ok (research_insights, Py.strip r), w') /\
    map fst research_insights =
      map fst (filter (fun qo => negb (is_raise (snd qo)))
                 (research_outcomes exa_search (S (tick w))
                    (search_queries (Py.strip r) company_name))).
Proof.
  intro Hr; eexists _, _; split.
  - apply research_company_ok; exact Hr.
  - apply research_entries_keys_order.
Qed.

(** X9: the proposal reads the resource map only through the resources it
    lists for the use cases of the proposal: two maps that agree on those,
    an absent key counting as an empty list, give the same proposal. *)
Theorem generate_final_proposal_resource_entries (company_name industry : string)
  (use_cases : list string) (rm1 rm2 : dict (list resource))
  (research_insights : dict (list insight)) (w : world) :
  (forall use_case, In use_case use_cases ->
     entries_of use_case rm1 = entries_of use_case rm2) ->
  generate_final_proposal clock company_name industry use_cases rm1 research_insights w =
  generate_final_proposal clock company_name industry use_cases rm2 research_insights w.
Proof.
  intro H; unfold generate_final_proposal, bind, ret, datetime_now.
  now rewrite (use_cases_markdown_entries use_cases 1 rm1 rm2 H).
Qed.

(** X10: with no research insights and no resources for any use case, the
    proposal is the header, the two section titles and one heading per use
    case, numbered from 1. *)
Theorem generate_final_proposal_bare (company_name industry : string)
  (use_cases : list string) (resource_map : dict (list resource)) (w : world) :
  (forall use_case, In use_case use_cases -> entries_of use_case resource_map = []) ->
  fst (generate_final_proposal clock company_name industry use_cases resource_map [] w) =
  Ok ("# AI Strategy Analysis for " ++ company_name ++ Py.nl ++ Py.nl
      ++ "## Industry: " ++ industry ++ Py.nl ++ Py.nl
      ++ "*Generated on " ++ strftime_BdY (clock (tick w)) ++ "*" ++ Py.nl ++ Py.nl
      ++ "## Market Research Insights" ++ Py.nl
      ++ "## Recommended AI/ML Use Cases" ++ Py.nl ++ Py.nl
      ++ headings_only 1 use_cases).
Proof.
  intro H; unfold generate_final_proposal, bind, ret, datetime_now; simpl fst.
  now rewrite (use_cases_markdown_no_entries use_cases 1 resource_map H).
Qed.

(** X11: the industry label is a piece of the classifier's reply: the
    classifier answered, and its reply is the label with some text before
    and after it. *)
Theorem determine_industry_substring (company_name : string) (w : world) (label : string) :
  fst (determine_industry generate_reply company_name w) = Ok label ->
  exists reply,
    generate_reply (tick w) "industry_analyzer" (industry_prompt company_name) = Ok reply /\
    substring_of label reply.
Proof.
  unfold determine_industry, llm_call, bind, ret; simpl.
  destruct (generate_reply (tick w) "industry_analyzer" (industry_prompt company_name))
    as [reply|e]; simpl; intro H; [|discriminate].
  injection H as <-; exists reply; split; [reflexivity|].
  apply strip_decomp.
Qed.

(** X12: a generator reply with no numbering marker gives one use case, the
    stripped reply, or none when the reply is blank. *)
Theorem parse_use_cases_unnumbered (text : string) :
  Re.has_marker text = false ->
  parse_use_cases text = if String.eqb (Py.strip text) "" then [] else [Py.strip text].
Proof.
  intro Hm; unfold parse_use_cases; rewrite split_num_no_marker by exact Hm.
  simpl; destruct (String.eqb (Py.strip text) ""); reflexivity.
Qed.

(** X13: the keys of the resource map are the use cases in the order of
    their first occurrence, a repeated use case keeping its first place. *)
Theorem collect_resource_assets_key_order (use_cases : list string) (w : world) :
  exists resource_map w',
    collect_resource_assets exa_search use_cases w = (Ok resource_map, w') /\
    map fst resource_map = first_occurrences use_cases.
Proof. apply use_case_loop_key_order. Qed.

End ExtraProperties.

Lemma run_stages_success_witness :
  exists research_insights resource_map proposal w',
    run_stages Fixtures.search_second_fails Fixtures.llm_acme Fixtures.clock_one_day
      "Acme Robotics" Fixtures.w0 =
      (Ok (Py.strip " Industrial Robotics", research_insights,
           parse_use_cases "1. Improve routing. 2. Predict churn.",
           resource_map, proposal), w') /\
    files w' = [].
Proof.
  destruct (run_stages_success Fixtures.search_second_fails Fixtures.llm_acme
              Fixtures.clock_one_day "Acme Robotics" Fixtures.w0 " Industrial Robotics"
              "1. Improve routing. 2. Predict churn.")
    as (ri & rm & p & w' & E & F & _); [reflexivity | intros; reflexivity |].
  exists ri, rm, p, w'; split; [exact E | exact F].
Defined.

Lemma run_stages_industry_failure_witness :
  run_stages Fixtures.search_dated Fixtures.llm_down Fixtures.clock_one_day
    "Acme Robotics" Fixtures.w0 =
    (Raise "rate limit",
     log_call (CallLLM "industry_analyzer" (industry_prompt "Acme Robotics")) Fixtures.w0).
Proof.
  apply run_stages_industry_failure; reflexivity.
Defined.

Lemma determine_industry_stripped_witness :
  Py.strip "Industrial Robotics" = "Industrial Robotics".
Proof.
  apply (determine_industry_stripped Fixtures.llm_acme "Acme Robotics" Fixtures.w0).
  vm_compute; reflexivity.
Defined.

Lemma parse_use_cases_stripped_witness :
  Py.strip "Improve routing." = "Improve routing.".
Proof.
  apply (parse_use_cases_stripped "1. Improve routing. 2. Predict churn.").
  vm_compute; left; reflexivity.
Defined.

Lemma parse_use_cases_no_marker_witness :
  Re.has_marker "Predict churn." = false.
Proof.
  apply (parse_use_cases_no_marker "1. Improve routing. 2. Predict churn.").
  vm_compute; right; left; reflexivity.
Defined.

Lemma research_company_key_order_witness :
  exists research_insights w',
    research_company Fixtures.search_second_fails Fixtures.llm_acme "Acme Robotics"
      Fixtures.w0 = (Ok (research_insights, "Industrial Robotics"), w') /\
    map fst research_insights =
      ["Industrial Robotics industry overview and trends";
       "Industrial Robotics technological innovations and future outlook"].
Proof.
  destruct (research_company_key_order Fixtures.search_second_fails Fixtures.llm_acme
              "Acme Robotics" Fixtures.w0 " Industrial Robotics")
    as (ri & w' & E & K); [reflexivity|].
  exists ri, w'; split; [exact E | rewrite K; vm_compute; reflexivity].
Defined.

Lemma generate_final_proposal_resource_entries_witness :
  generate_final_proposal Fixtures.clock_one_day "Acme Robotics" "Industrial Robotics"
    ["Improve routing."] [] [] Fixtures.w0 =
  generate_final_proposal Fixtures.clock_one_day "Acme Robotics" "Industrial Robotics"
    ["Improve routing."] [("Improve routing.", [])] [] Fixtures.w0.
Proof.
  apply generate_final_proposal_resource_entries.
  intros use_case [<-|[]]; reflexivity.
Defined.

Lemma generate_final_proposal_bare_witness :
  fst (generate_final_proposal Fixtures.clock_one_day "Acme Robotics" "Industrial Robotics"
         ["Improve routing."] [("Improve routing.", [])] [] Fixtures.w0) =
  Ok ("# AI Strategy Analysis for " ++ "Acme Robotics" ++ Py.nl ++ Py.nl
      ++ "## Industry: " ++ "Industrial Robotics" ++ Py.nl ++ Py.nl
      ++ "*Generated on " ++ strftime_BdY (Fixtures.clock_one_day 0) ++ "*" ++ Py.nl ++ Py.nl
      ++ "## Market Research Insights" ++ Py.nl
      ++ "## Recommended AI/ML Use Cases" ++ Py.nl ++ Py.nl
      ++ headings_only 1 ["Improve routing."]).
Proof.
  apply (generate_final_proposal_bare Fixtures.clock_one_day).
  intros use_case [<-|[]]; reflexivity.
Defined.

Lemma determine_industry_substring_witness :
  exists reply,
    Fixtures.llm_acme 0 "industry_analyzer" (industry_prompt "Acme Robotics") = Ok reply /\
    substring_of "Industrial Robotics" reply.
Proof.
  apply (determine_industry_substring Fixtures.llm_acme "Acme Robotics" Fixtures.w0).
  vm_compute; reflexivity.
Defined.

Lemma parse_use_cases_unnumbered_witness :
  parse_use_cases "  Predict churn  " = ["Predict churn"].
Proof.
  rewrite (parse_use_cases_unnumbered "  Predict churn  ") by reflexivity.
  reflexivity.
Defined.
